(** * Sirportly V2 API client for NodeJS: a shallow embedding of [index.js]

    The client is a constructor [SirportlyAPI] that validates a merged
    configuration object, a single dispatch routine
    [SirportlyAPI.prototype.request] that builds the transport options and
    installs a response handler, and about twenty convenience methods that
    call the dispatch routine with a fixed path.

    JavaScript objects used as key bags are finite maps from property names
    to values; the effects of the code (diagnostic lines, the call to the
    HTTP transport, invocations of the completion callback, thrown
    exceptions) are made explicit by a small trace-and-exception monad. *)

From Stdlib Require Import Ascii String.
From stdpp Require Import gmap strings list fin_maps pretty.

Set Warnings "-register-all".

Local Open Scope string_scope.
Local Open Scope Z_scope.

(** ** Values *)

(** The JavaScript values the client handles.  A Number is an integer here
    (HTTP status codes, ports and page numbers; magnitudes below 10^21, which
    print in plain decimal).  [VObj] is a plain object: its own enumerable
    string-keyed properties, prototype [Object.prototype].  [VFun] is a
    function value known by its identity; [VError] an instance of [Error] or
    of one of its subclasses, with its [name] and [message]. *)
Inductive value : Type :=
  | VUndefined
  | VNull
  | VBool (b : bool)
  | VNum (n : Z)
  | VStr (s : string)
  | VArr (elems : list value)
  | VObj (props : gmap string value)
  | VFun (f : nat)
  | VError (name message : string).

(** The result of evaluating an expression or a call: a value, or a thrown
    exception. *)
Inductive completion (A : Type) : Type :=
  | Normal (a : A)
  | Throw (e : value).
Arguments Normal {A} a.
Arguments Throw {A} e.


Definition completion_bind {A B} (k : A → completion B) (c : completion A)
  : completion B :=
  match c with
  | Normal a => k a
  | Throw e => Throw e
  end.

#[export] Instance completion_ret : MRet completion := @Normal.
#[export] Instance completion_mbind : MBind completion := @completion_bind.

(** What a call statement whose value is dropped leaves: [undefined], unless the
    callee throws. *)
Definition discard (c : completion value) : completion value :=
  match c with
  | Normal _ => Normal VUndefined
  | Throw e => Throw e
  end.

(** ** Operators of the language *)

(** [if (v)], [!v] and [v || w] use ToBoolean. *)
Definition truthy (v : value) : bool :=
  match v with
  | VUndefined | VNull => false
  | VBool b => b
  | VNum n => negb (n =? 0)
  | VStr s => negb (String.eqb s "")
  | VArr _ | VObj _ | VFun _ | VError _ _ => true
  end.

(** [a || b] *)
Definition or_else (a b : value) : value := if truthy a then a else b.

Definition typeof (v : value) : string :=
  match v with
  | VUndefined => "undefined"
  | VNull | VArr _ | VObj _ | VError _ _ => "object"
  | VBool _ => "boolean"
  | VNum _ => "number"
  | VStr _ => "string"
  | VFun _ => "function"
  end.

(** Whether a value is an Object in the sense of the language (everything
    that is not a primitive). *)
Definition is_object (v : value) : bool :=
  match v with
  | VArr _ | VObj _ | VFun _ | VError _ _ => true
  | _ => false
  end.

Definition TypeError (message : string) : value := VError "TypeError" message.

(** [o.k] on an object literal or on the result of [merge]: the own property,
    or [undefined]. *)
Definition prop (o : gmap string value) (k : string) : value :=
  default VUndefined (o !! k).

(** [v.k] for the property names the program reads on a decoded body
    ([error] and [errors]; neither is defined on a built-in prototype).
    Reading a property of [null] or [undefined] throws. *)
Definition get_prop (v : value) (k : string) : completion value :=
  match v with
  | VUndefined =>
      Throw (TypeError ("Cannot read properties of undefined (reading '" ++ k ++ "')"))
  | VNull =>
      Throw (TypeError ("Cannot read properties of null (reading '" ++ k ++ "')"))
  | VObj o => Normal (prop o k)
  | VError name message =>
      Normal (if String.eqb k "message" then VStr message
              else if String.eqb k "name" then VStr name
              else VUndefined)
  | VBool _ | VNum _ | VStr _ | VArr _ | VFun _ => Normal VUndefined
  end.

(** ToString on a primitive.  A Number is printed in plain decimal, which is
    the language's form for the integers of magnitude below 10^21 that
    [VNum] stands for. *)
Definition ToString_prim (v : value) : string :=
  match v with
  | VUndefined => "undefined"
  | VNull => "null"
  | VBool true => "true"
  | VBool false => "false"
  | VNum n => pretty n
  | VStr s => s
  | _ => ""
  end.


(** [Error.prototype.toString] *)
Definition Error_toString (name message : string) : string :=
  if String.eqb name "" then message
  else if String.eqb message "" then name
  else name ++ ": " ++ message.

(** ** Effects *)

(** The closure that [request] hands to the transport: the response handler
    with the two variables it captures. *)
Record handler : Type := { h_uri : string; h_callback : value }.

(** What a run of the code does to the outside, in order. *)
Inductive event : Type :=
  | EDebug (format : string) (args : list value)
      (** a diagnostic line, [debug(format, args...)] *)
  | ETransport (options : gmap string value) (h : handler)
      (** the call to the HTTP transport, [request(options, h)] *)
  | ECallback (f : nat) (args : list value).
      (** an invocation of the completion callback *)

(** A computation: the events it emitted, and how it ended. *)
Definition M (A : Type) : Type := (list event * completion A)%type.

Definition trace {A} (m : M A) : list event := m.1.
Definition outcome {A} (m : M A) : completion A := m.2.

Definition M_bind {A B} (k : A → M B) (m : M A) : M B :=
  match m.2 with
  | Normal a => ((m.1 ++ (k a).1)%list, (k a).2)
  | Throw e => (m.1, Throw e)
  end.

#[export] Instance M_ret : MRet M := λ A a, ([], Normal a).
#[export] Instance M_mbind : MBind M := @M_bind.

Definition emit (e : event) : M unit := ([e], Normal tt).
Definition throw {A} (e : value) : M A := ([], Throw e).
Definition lift {A} (c : completion A) : M A := ([], c).

Definition is_callback (e : event) : bool :=
  match e with ECallback _ _ => true | _ => false end.

(** How many times the completion callback was invoked. *)
Definition callback_count (t : list event) : nat :=
  length (List.filter is_callback t).

(** ** The [merge] package *)

(** Property names that [merge] never copies. *)
Definition merge_skipped : list string := ["__proto__"; "constructor"; "prototype"].

(** [merge(base, item)] of the [merge] package: a shallow merge.  The result
    is [base] (or a new empty object when [base] is not a plain object) with
    every enumerable property of [item] assigned over it; an [item] that is
    not a plain object is passed over.  Property values are copied as they
    are, never merged. *)
Definition merge (base item : value) : gmap string value :=
  let result := match base with VObj o => o | _ => ∅ end in
  match item with
  | VObj o => filter (λ kv, kv.1 ∉ merge_skipped) o ∪ result
  | _ => result
  end.

(** Solves [k ∉ merge_skipped] for a literal [k]. *)
Ltac not_skipped := apply (bool_decide_unpack _); vm_compute; exact I.

(** ** A decoder for JSON text

    The examples need response bodies decoded.  [json_decode] is the part of
    [JSON.parse] for ASCII texts whose numbers are integer literals and whose
    strings have no [\u] escape; it answers [None] on every other text, and
    it keeps an integer literal exact, where the engine rounds one that is
    too large for a Number.  The theorems below hold for any decoder; the
    examples only use texts on which the two agree. *)

Definition is_ws (c : ascii) : bool :=
  let n := N_of_ascii c in
  ((n =? 32) || (n =? 9) || (n =? 10) || (n =? 13))%N.

Definition is_digit (c : ascii) : bool :=
  let n := N_of_ascii c in ((48 <=? n) && (n <=? 57))%N.

Definition digit_val (c : ascii) : Z := Z.of_N (N_of_ascii c) - 48.

Fixpoint skip_ws (s : list ascii) : list ascii :=
  match s with
  | c :: r => if is_ws c then skip_ws r else s
  | [] => []
  end.

(** [strip_prefix p s]: what follows [p] in [s], when [s] starts with [p]. *)
Fixpoint strip_prefix (p s : list ascii) : option (list ascii) :=
  match p, s with
  | [], _ => Some s
  | c :: p', d :: s' => if Ascii.eqb c d then strip_prefix p' s' else None
  | _ :: _, [] => None
  end.

Definition chars (s : string) : list ascii := list_ascii_of_string s.

Fixpoint parse_digits (acc : Z) (s : list ascii) : Z * list ascii :=
  match s with
  | c :: r => if is_digit c then parse_digits (10 * acc + digit_val c) r else (acc, s)
  | [] => (acc, [])
  end.

(** After an integer literal, the text must not go on as a fraction or an
    exponent. *)
Definition ends_number (s : list ascii) : bool :=
  match s with
  | c :: _ =>
      let n := N_of_ascii c in negb ((n =? 46) || (n =? 101) || (n =? 69))%N
  | [] => true
  end.

Definition parse_nat_literal (s : list ascii) : option (Z * list ascii) :=
  match s with
  | c :: r =>
      if (N_of_ascii c =? 48)%N then
        match r with
        | d :: _ => if is_digit d then None else
                      if ends_number r then Some (0, r) else None
        | [] => Some (0, r)
        end
      else if is_digit c then
        let '(n, r') := parse_digits (digit_val c) r in
        if ends_number r' then Some (n, r') else None
      else None
  | [] => None
  end.

Definition parse_int (s : list ascii) : option (Z * list ascii) :=
  match s with
  | c :: r =>
      if (N_of_ascii c =? 45)%N then
        '(n, r') ← parse_nat_literal r; Some (- n, r')
      else parse_nat_literal s
  | [] => None
  end.

(** The character an escape sequence stands for. *)
Definition unescape (c : ascii) : option ascii :=
  let n := N_of_ascii c in
  if (n =? 34)%N then Some c            (* quotation mark *)
  else if (n =? 92)%N then Some c       (* reverse solidus *)
  else if (n =? 47)%N then Some c       (* solidus *)
  else if (n =? 98)%N then Some (ascii_of_N 8)
  else if (n =? 102)%N then Some (ascii_of_N 12)
  else if (n =? 110)%N then Some (ascii_of_N 10)
  else if (n =? 114)%N then Some (ascii_of_N 13)
  else if (n =? 116)%N then Some (ascii_of_N 9)
  else None.

(** The rest of a string literal, after its opening quote; [acc] holds the
    characters read so far, last first. *)
Fixpoint parse_string (s acc : list ascii) : option (string * list ascii) :=
  match s with
  | [] => None
  | c :: r =>
      let n := N_of_ascii c in
      if (n =? 34)%N then Some (string_of_list_ascii (rev acc), r)
      else if (n =? 92)%N then
        match r with
        | e :: r' => u ← unescape e; parse_string r' (u :: acc)
        | [] => None
        end
      else if ((n <? 32) || (127 <? n))%N then None
      else parse_string r (c :: acc)
  end.

Fixpoint parse_value (fuel : nat) (s : list ascii) {struct fuel}
  : option (value * list ascii) :=
  match fuel with
  | O => None
  | S fuel =>
      match skip_ws s with
      | [] => None
      | c :: r =>
          let n := N_of_ascii c in
          if (n =? 34)%N then
            '(str, r') ← parse_string r []; Some (VStr str, r')
          else if (n =? 91)%N then
            match strip_prefix (chars "]") (skip_ws r) with
            | Some r' => Some (VArr [], r')
            | None => parse_elems fuel r []
            end
          else if (n =? 123)%N then
            match strip_prefix (chars "}") (skip_ws r) with
            | Some r' => Some (VObj ∅, r')
            | None => parse_members fuel r ∅
            end
          else
            match strip_prefix (chars "null") (c :: r),
                  strip_prefix (chars "true") (c :: r),
                  strip_prefix (chars "false") (c :: r) with
            | Some r', _, _ => Some (VNull, r')
            | _, Some r', _ => Some (VBool true, r')
            | _, _, Some r' => Some (VBool false, r')
            | None, None, None =>
                '(z, r') ← parse_int (c :: r); Some (VNum z, r')
            end
      end
  end
with parse_elems (fuel : nat) (s : list ascii) (acc : list value) {struct fuel}
  : option (value * list ascii) :=
  match fuel with
  | O => None
  | S fuel =>
      '(v, r) ← parse_value fuel s;
      match skip_ws r with
      | c :: r' =>
          if (N_of_ascii c =? 44)%N then parse_elems fuel r' (v :: acc)
          else if (N_of_ascii c =? 93)%N then Some (VArr (rev (v :: acc)), r')
          else None
      | [] => None
      end
  end
with parse_members (fuel : nat) (s : list ascii) (acc : gmap string value)
  {struct fuel} : option (value * list ascii) :=
  match fuel with
  | O => None
  | S fuel =>
      r ← strip_prefix [ascii_of_N 34] (skip_ws s);
      '(k, r1) ← parse_string r [];
      r2 ← strip_prefix (chars ":") (skip_ws r1);
      '(v, r3) ← parse_value fuel r2;
      match skip_ws r3 with
      | c :: r4 =>
          if (N_of_ascii c =? 44)%N then parse_members fuel r4 (<[k:=v]> acc)
          else if (N_of_ascii c =? 125)%N then Some (VObj (<[k:=v]> acc), r4)
          else None
      | [] => None
      end
  end.

Definition json_decode (text : string) : option value :=
  let s := chars text in
  '(v, r) ← parse_value (2 * length s + 2) s;
  match skip_ws r with
  | [] => Some v
  | _ :: _ => None
  end.

(** [JSON.parse] on the fragment: the value, or a [SyntaxError].  The
    message of the error is worded by the engine; a fixed text stands for
    it. *)
Definition json_parse (text : string) : completion value :=
  match json_decode text with
  | Some v => Normal v
  | None => Throw (VError "SyntaxError" "Unexpected token in JSON")
  end.

Section Runtime.

(** [JSON.parse] of the runtime: the decoded value, or the [SyntaxError]
    it throws. *)
Variable JSON_parse : string → completion value.

(** Calling the function value [f] with a [this] and arguments: what it
    returns or throws.  Functions are supplied by the caller of the
    library and are black boxes here. *)
Variable apply_fn : nat → value → list value → completion value.

(** [Function.prototype.toString]: the source text of a function. *)
Variable fn_source : nat → string.

(** *** Conversions to string *)

(** One step of OrdinaryToPrimitive on a plain object: look the method up,
    call it when it is callable.  [None] stands for "go on with the next
    method": the method is not callable, or it returned an object. *)
Definition try_method (o : gmap string value) (name : string)
  : completion (option value) :=
  match o !! name with
  | Some (VFun f) =>
      r ← apply_fn f (VObj o) [];
      mret (if is_object r then None else Some r)
  | Some _ => mret None
  | None =>
      (* the methods of [Object.prototype]: [toString] answers
         "[object Object]", [valueOf] answers the object itself *)
      mret (if String.eqb name "toString" then Some (VStr "[object Object]")
            else None)
  end.

(** OrdinaryToPrimitive: [toString] then [valueOf] for the hint "string",
    the other way round otherwise. *)
Definition OrdinaryToPrimitive (hint_string : bool) (o : gmap string value)
  : completion value :=
  let first := if hint_string then "toString" else "valueOf" in
  let second := if hint_string then "valueOf" else "toString" in
  r1 ← try_method o first;
  match r1 with
  | Some p => mret p
  | None =>
      r2 ← try_method o second;
      match r2 with
      | Some p => mret p
      | None => Throw (TypeError "Cannot convert object to primitive value")
      end
  end.

(** ToString.  An array is joined with commas, [null] and [undefined]
    elements giving the empty string. *)
Fixpoint ToString (v : value) : completion string :=
  match v with
  | VArr elems =>
      (fix join (l : list value) : completion string :=
         match l with
         | [] => mret ""
         | x :: l' =>
             s ← match x with
                 | VUndefined | VNull => mret ""
                 | _ => ToString x
                 end;
             match l' with
             | [] => mret s
             | _ => r ← join l'; mret (s ++ "," ++ r)
             end
         end) elems
  | VObj o => p ← OrdinaryToPrimitive true o; mret (ToString_prim p)
  | VFun f => mret (fn_source f)
  | VError name message => mret (Error_toString name message)
  | _ => mret (ToString_prim v)
  end.

(** ToPrimitive without a hint, as the [+] operator applies it. *)
Definition ToPrimitive (v : value) : completion value :=
  match v with
  | VObj o => OrdinaryToPrimitive false o
  | VArr _ | VFun _ | VError _ _ => s ← ToString v; mret (VStr s)
  | _ => mret v
  end.

(** [v + s] and [s + v] where [s] is a string: concatenation. *)
Definition add_string_r (v : value) (s : string) : completion string :=
  p ← ToPrimitive v; mret (ToString_prim p ++ s).
Definition add_string_l (s : string) (v : value) : completion string :=
  p ← ToPrimitive v; mret (s ++ ToString_prim p).

(** [new Error(args...)]: the message is the first argument converted to
    a string, when there is one.  Further arguments that are not objects
    are discarded. *)
Definition new_Error (args : list value) : completion value :=
  match args with
  | [] | VUndefined :: _ => mret (VError "Error" "")
  | message :: _ => s ← ToString message; mret (VError "Error" s)
  end.

(** [callee(args...)] at the places where the code calls its completion
    callback: a plain call, with [undefined] as the [this] argument. *)
Definition invoke (callee : value) (args : list value) : M value :=
  match callee with
  | VFun f => emit (ECallback f args);; lift (apply_fn f VUndefined args)
  | _ => throw (TypeError "callback is not a function")
  end.


(** ** The client *)

Record client : Type := { _config : gmap string value }.

Definition _default_config : gmap string value :=
  {[ "token" := VNull;
     "secret" := VNull;
     "server" := VNull;
     "protocol" := VStr "http";
     "port" := VNum 80 ]}.

(** [merge(_default_config, config || {})] *)
Definition merged_config (config : value) : gmap string value :=
  merge (VObj _default_config) (or_else config (VObj ∅)).

(** The options that the constructor requires. *)
Definition required_options : list string := ["token"; "secret"; "server"].

(** The validation test of the constructor:
    [!token || !secret || !server] on a configuration. *)
Definition misconfigured (cfg : gmap string value) : bool :=
  negb (truthy (prop cfg "token"))
  || negb (truthy (prop cfg "secret"))
  || negb (truthy (prop cfg "server")).

(** [new SirportlyAPI(config)] *)
Definition SirportlyAPI (config : value) : M client :=
  let this := {| _config := merged_config config |} in
  if misconfigured (_config this)
  then
    e ← lift (new_Error
      [VStr "Misconfiguration, token, secret and server required in the config."]);
    throw e
  else
    emit (EDebug "Initialized with [%s]" [prop (_config this) "server"]);;
    mret this.

(** [SirportlyAPI.prototype.getConfig] *)
Definition getConfig (this : client) : value := VObj (_config this).

(** The value of the [endpoint] variable of [request]. *)
Definition endpoint (this : client) (uri : string) : completion string :=
  s1 ← add_string_r (prop (_config this) "protocol") "://";
  s2 ← add_string_l s1 (prop (_config this) "server");
  s3 ← add_string_l (s2 ++ ":") (prop (_config this) "port");
  mret (s3 ++ uri).

(** The default request options of [request], before the caller's are merged
    onto them. *)
Definition default_options (this : client) (url : string) : gmap string value :=
  {[ "method" := VStr "GET";
     "url" := VStr url;
     "headers" := VObj {[ "X-Auth-Token" := prop (_config this) "token";
                          "X-Auth-Secret" := prop (_config this) "secret" ]} ]}.

(** [SirportlyAPI.prototype.request], up to and including the call to the
    transport. *)
Definition request (this : client) (uri : string) (options callback : value)
  : M value :=
  if negb (truthy callback) || negb (String.eqb (typeof callback) "function")
  then
    e ← lift (new_Error [VStr "Callback parameter must be a fuction"]);
    throw e
  else
    url ← lift (endpoint this uri);
    let options := merge (VObj (default_options this url)) options in
    emit (ETransport options {| h_uri := uri; h_callback := callback |});;
    mret VUndefined.

(** [response.statusCode > 299 || response.statusCode < 200] *)
Definition out_of_range (statusCode : Z) : bool :=
  (statusCode >? 299) || (statusCode <? 200).

(** The response handler of [request]: the function the transport calls with
    [(error, response, body)].  [statusCode] is [response.statusCode].  The
    three error paths end in [return callback(...)]; the last statement,
    [callback(null, body_json)], has no [return], so the handler answers
    [undefined] after it. *)
Definition on_response (h : handler) (error : value) (statusCode : Z)
  (body : string) : M value :=
  if truthy error then invoke (h_callback h) [error]
  else
    emit (EDebug "Request to [%d] -> [%s]" [VNum statusCode; VStr (h_uri h)]);;
    body_json ← lift (JSON_parse body);
    if out_of_range statusCode then
      single ← lift (get_prop body_json "error");
      if truthy single then
        e ← lift (new_Error [single]);
        invoke (h_callback h) [e]
      else
        plural ← lift (get_prop body_json "errors");
        if truthy plural then
          e ← lift (new_Error [VStr body; VNum statusCode; VStr body]);
          invoke (h_callback h) [e]
        else invoke (h_callback h) [VNull; body_json];; mret VUndefined
    else invoke (h_callback h) [VNull; body_json];; mret VUndefined.

(** One dispatch from start to end: the call to [request], then the
    transport answering the handler with [(error, response, body)]. *)
Definition dispatch (this : client) (uri : string) (options callback : value)
  (error : value) (statusCode : Z) (body : string) : M value :=
  request this uri options callback;;
  on_response {| h_uri := uri; h_callback := callback |} error statusCode body.

(** *** Convenience methods *)

Definition ticket (this : client) (ticket_reference callback : value) : M value :=
  request this "/api/v2/tickets/ticket"
    (VObj {[ "qs" := VObj {[ "reference" := ticket_reference ]} ]}) callback.

Definition tickets (this : client) (page callback : value) : M value :=
  let '(page, callback) :=
    if String.eqb (typeof page) "function" then
      let page := VNum 1 in
      let callback := page in
      (page, callback)
    else (page, callback) in
  request this "/api/v2/tickets/all"
    (VObj {[ "qs" := VObj {[ "page" := or_else page (VNum 1) ]} ]}) callback.

Definition submit_ticket (this : client) (params callback : value) : M value :=
  request this "/api/v2/tickets/submit"
    (VObj {[ "method" := VStr "POST"; "qs" := or_else params (VObj ∅) ]}) callback.

(** The options built by [post_update], [update_ticket] and [add_follow_up]. *)
Definition update_options (reference updates : value) : value :=
  VObj (merge (VObj {[ "form" := updates ]})
              (VObj {[ "method" := VStr "POST";
                       "qs" := VObj {[ "ticket" := reference ]} ]})).

Definition post_update (this : client) (reference updates callback : value)
  : M value :=
  request this "/api/v2/tickets/post_update" (update_options reference updates)
    callback.

Definition update_ticket (this : client) (reference updates callback : value)
  : M value :=
  request this "/api/v2/tickets/update" (update_options reference updates)
    callback.

Definition run_macro (this : client) (reference macro callback : value)
  : M value :=
  request this "/api/v2/tickets/macro"
    (VObj {[ "qs" := VObj {[ "ticket" := reference; "macro" := macro ]} ]})
    callback.

Definition add_follow_up (this : client) (reference updates callback : value)
  : M value :=
  request this "/api/v2/tickets/add_followup" (update_options reference updates)
    callback.

Definition statuses (this : client) (callback : value) : M value :=
  request this "/api/v2/objects/statuses" (VObj ∅) callback.

Definition priorities (this : client) (callback : value) : M value :=
  request this "/api/v2/objects/priorities" (VObj ∅) callback.

Definition teams (this : client) (callback : value) : M value :=
  request this "/api/v2/objects/teams" (VObj ∅) callback.

Definition brands (this : client) (callback : value) : M value :=
  request this "/api/v2/objects/brands" (VObj ∅) callback.

Definition departments (this : client) (callback : value) : M value :=
  request this "/api/v2/objects/departments" (VObj ∅) callback.

Definition escalation_paths (this : client) (callback : value) : M value :=
  request this "/api/v2/objects/escalation_paths" (VObj ∅) callback.

Definition slas (this : client) (callback : value) : M value :=
  request this "/api/v2/objects/slas" (VObj ∅) callback.

Definition filters (this : client) (callback : value) : M value :=
  request this "/api/v2/objects/filters" (VObj ∅) callback.

(** The query-string mapping of [create_user]. *)
Definition create_user_qs (email first last params : value) : gmap string value :=
  merge (VObj {[ "email_address" := email;
                 "first_name" := first;
                 "last_name" := last ]}) params.

Definition create_user (this : client) (email first last params callback : value)
  : M value :=
  request this "/api/v2/users/create"
    (VObj {[ "method" := VStr "POST";
             "qs" := VObj (create_user_qs email first last params) ]}) callback.

Definition spql (this : client) (query callback : value) : M value :=
  request this "/api/v2/tickets/spql"
    (VObj {[ "method" := VStr "POST"; "form" := VObj {[ "spql" := query ]} ]})
    callback.


(** *** The convenience methods, as one family

    A call of a convenience method is the method with its arguments other
    than the callback; [call] performs it.  [op_path], [op_method], [op_qs]
    and [op_form] say what each method is expected to hand to the
    transport. *)

Inductive operation : Type :=
  | OpTicket (ticket_reference : value)
  | OpTickets (page : value)
  | OpSubmitTicket (params : value)
  | OpPostUpdate (reference updates : value)
  | OpUpdateTicket (reference updates : value)
  | OpRunMacro (reference macro : value)
  | OpAddFollowUp (reference updates : value)
  | OpStatuses
  | OpPriorities
  | OpTeams
  | OpBrands
  | OpDepartments
  | OpEscalationPaths
  | OpSlas
  | OpFilters
  | OpCreateUser (email first last params : value)
  | OpSpql (query : value).

Definition call (this : client) (op : operation) (callback : value) : M value :=
  match op with
  | OpTicket r => ticket this r callback
  | OpTickets page => tickets this page callback
  | OpSubmitTicket params => submit_ticket this params callback
  | OpPostUpdate r u => post_update this r u callback
  | OpUpdateTicket r u => update_ticket this r u callback
  | OpRunMacro r m => run_macro this r m callback
  | OpAddFollowUp r u => add_follow_up this r u callback
  | OpStatuses => statuses this callback
  | OpPriorities => priorities this callback
  | OpTeams => teams this callback
  | OpBrands => brands this callback
  | OpDepartments => departments this callback
  | OpEscalationPaths => escalation_paths this callback
  | OpSlas => slas this callback
  | OpFilters => filters this callback
  | OpCreateUser email first last params =>
      create_user this email first last params callback
  | OpSpql q => spql this q callback
  end.

Definition op_path (op : operation) : string :=
  match op with
  | OpTicket _ => "/api/v2/tickets/ticket"
  | OpTickets _ => "/api/v2/tickets/all"
  | OpSubmitTicket _ => "/api/v2/tickets/submit"
  | OpPostUpdate _ _ => "/api/v2/tickets/post_update"
  | OpUpdateTicket _ _ => "/api/v2/tickets/update"
  | OpRunMacro _ _ => "/api/v2/tickets/macro"
  | OpAddFollowUp _ _ => "/api/v2/tickets/add_followup"
  | OpStatuses => "/api/v2/objects/statuses"
  | OpPriorities => "/api/v2/objects/priorities"
  | OpTeams => "/api/v2/objects/teams"
  | OpBrands => "/api/v2/objects/brands"
  | OpDepartments => "/api/v2/objects/departments"
  | OpEscalationPaths => "/api/v2/objects/escalation_paths"
  | OpSlas => "/api/v2/objects/slas"
  | OpFilters => "/api/v2/objects/filters"
  | OpCreateUser _ _ _ _ => "/api/v2/users/create"
  | OpSpql _ => "/api/v2/tickets/spql"
  end.

Definition op_method (op : operation) : string :=
  match op with
  | OpSubmitTicket _ | OpPostUpdate _ _ | OpUpdateTicket _ _
  | OpAddFollowUp _ _ | OpCreateUser _ _ _ _ | OpSpql _ => "POST"
  | _ => "GET"
  end.

(** The query-string option, when the method sets one. *)
Definition op_qs (op : operation) : option value :=
  match op with
  | OpTicket r => Some (VObj {[ "reference" := r ]})
  | OpTickets page => Some (VObj {[ "page" := or_else page (VNum 1) ]})
  | OpSubmitTicket params => Some (or_else params (VObj ∅))
  | OpPostUpdate r _ | OpUpdateTicket r _ | OpAddFollowUp r _ =>
      Some (VObj {[ "ticket" := r ]})
  | OpRunMacro r m => Some (VObj {[ "ticket" := r; "macro" := m ]})
  | OpCreateUser email first last params =>
      Some (VObj (create_user_qs email first last params))
  | OpSpql _ => None
  | _ => None
  end.

(** The form-body option, when the method sets one. *)
Definition op_form (op : operation) : option value :=
  match op with
  | OpPostUpdate _ u | OpUpdateTicket _ u | OpAddFollowUp _ u => Some u
  | OpSpql q => Some (VObj {[ "spql" := q ]})
  | _ => None
  end.

(** The header map that [request] builds from the configuration. *)
Definition auth_headers (this : client) : value :=
  VObj {[ "X-Auth-Token" := prop (_config this) "token";
          "X-Auth-Secret" := prop (_config this) "secret" ]}.

(** ** Inputs of the examples *)

(** A caller-supplied function that returns [undefined], and its source
    text. *)
Definition noop_fn (f : nat) (this : value) (args : list value)
  : completion value := Normal VUndefined.
Definition noop_source (f : nat) : string := "function () {}".

(** The quotation mark, and a JSON string literal without escapes. *)
Definition dquote : string := String (ascii_of_N 34) EmptyString.
Definition quoted (s : string) : string := dquote ++ s ++ dquote.

(** A caller-supplied function that throws. *)
Definition throwing_fn (f : nat) (this : value) (args : list value)
  : completion value := Throw (VError "Error" "callback failed").

(** An error as the transport reports one. *)
Definition connection_refused : value := VError "Error" "connect ECONNREFUSED".

(** A valid configuration that sets the three required options only. *)
Definition example_config : gmap string value :=
  {[ "token" := VStr "tok"; "secret" := VStr "sec"; "server" := VStr "example.com" ]}.

Definition example_client : client :=
  {| _config := merged_config (VObj example_config) |}.

Definition example_handler : handler :=
  {| h_uri := "/api/v2/objects/statuses"; h_callback := VFun 0 |}.

(** The body [{ error : not found }], both being string literals. *)
Definition body_not_found : string :=
  "{" ++ quoted "error" ++ ":" ++ quoted "not found" ++ "}".


(** The body [{ errors : [a, b] }], [a] and [b] being string literals. *)
Definition body_errors : string :=
  "{" ++ quoted "errors" ++ ":[" ++ quoted "a" ++ "," ++ quoted "b" ++ "]}".

(** ** Properties *)

(** *** Reasoning about computations *)

Lemma M_bind_unfold {A B} (m : M A) (k : A → M B) :
  (m ≫= k) =
  match m.2 with
  | Normal a => ((m.1 ++ (k a).1)%list, (k a).2)
  | Throw e => (m.1, Throw e)
  end.
Proof. reflexivity. Qed.

Lemma bind_lift_Normal {A B} (a : A) (k : A → M B) : (lift (Normal a) ≫= k) = k a.
Proof. rewrite M_bind_unfold. simpl. by destruct (k a). Qed.

Lemma bind_lift_Throw {A B} (e : value) (k : A → M B) :
  (lift (Throw e) ≫= k) = ([], Throw e).
Proof. reflexivity. Qed.

Lemma bind_emit {B} (ev : event) (k : unit → M B) :
  (emit ev ≫= k) = (ev :: (k tt).1, (k tt).2).
Proof. reflexivity. Qed.

Lemma new_Error_string (s : string) (rest : list value) :
  new_Error (VStr s :: rest) = Normal (VError "Error" s).
Proof. reflexivity. Qed.

(** *** The merge *)

Lemma merge_not_object (base : gmap string value) (item : value) :
  (∀ o, item ≠ VObj o) → merge (VObj base) item = base.
Proof. intros H. destruct item; try reflexivity. by destruct (H props). Qed.

Lemma merge_lookup_item (base o : gmap string value) (k : string) (v : value) :
  k ∉ merge_skipped → o !! k = Some v →
  merge (VObj base) (VObj o) !! k = Some v.
Proof.
  intros Hk Hv. unfold merge. apply lookup_union_Some_l.
  apply map_lookup_filter_Some. split; [done | exact Hk].
Qed.

Lemma merge_lookup_base (base o : gmap string value) (k : string) :
  o !! k = None → merge (VObj base) (VObj o) !! k = base !! k.
Proof.
  intros Hk. unfold merge. apply lookup_union_r.
  apply map_lookup_filter_None. left. exact Hk.
Qed.

Lemma merged_config_object (o : gmap string value) :
  merged_config (VObj o) = merge (VObj _default_config) (VObj o).
Proof. reflexivity. Qed.

Lemma merged_config_prop_given (o : gmap string value) (k : string) :
  k ∉ merge_skipped → is_Some (o !! k) →
  prop (merged_config (VObj o)) k = prop o k.
Proof.
  intros Hk [v Hv]. unfold prop.
  by rewrite merged_config_object, (merge_lookup_item _ _ _ _ Hk Hv), Hv.
Qed.

Lemma truthy_prop_is_Some (o : gmap string value) (k : string) :
  truthy (prop o k) = true → is_Some (o !! k).
Proof. unfold prop. destruct (o !! k); [eauto | discriminate]. Qed.

(** *** The constructor *)

Lemma misconfigured_spec (cfg : gmap string value) :
  misconfigured cfg = true ↔
  ∃ k, k ∈ required_options ∧ truthy (prop cfg k) = false.
Proof.
  unfold misconfigured, required_options.
  rewrite !orb_true_iff, !negb_true_iff. split.
  - intros [[H | H] | H]; eexists; (split; [| exact H]); set_solver.
  - intros (k & Hk & Hf). rewrite !elem_of_cons in Hk.
    destruct Hk as [-> | [-> | [-> | Hk]]]; [tauto .. |].
    by apply elem_of_nil in Hk.
Qed.

Lemma SirportlyAPI_unfold (config : value) :
  SirportlyAPI config =
  if misconfigured (merged_config config) then
    ([], Throw (VError "Error"
       "Misconfiguration, token, secret and server required in the config."))
  else
    ([EDebug "Initialized with [%s]" [prop (merged_config config) "server"]],
     Normal {| _config := merged_config config |}).
Proof.
  unfold SirportlyAPI. cbn [_config].
  destruct (misconfigured (merged_config config)); reflexivity.
Qed.

(** C7.  Construction throws exactly when one of [token], [secret] and
    [server] is falsy in the configuration merged over the defaults.  It then
    throws the misconfiguration error having emitted nothing (no call to the
    transport, no diagnostic line), and produces no client. *)
Theorem SirportlyAPI_misconfiguration (config : value) :
  let missing :=
    ∃ k, k ∈ required_options ∧ truthy (prop (merged_config config) k) = false in
  (missing →
     SirportlyAPI config =
       ([], Throw (VError "Error"
          "Misconfiguration, token, secret and server required in the config.")))
  ∧ (∀ e, outcome (SirportlyAPI config) = Throw e → missing)
  ∧ (∀ this, outcome (SirportlyAPI config) = Normal this → ¬ missing).
Proof.
  cbn zeta. rewrite SirportlyAPI_unfold.
  destruct (misconfigured (merged_config config)) eqn:Hm.
  - apply misconfigured_spec in Hm. repeat split.
    + intros e _. exact Hm.
    + intros this Hthis. discriminate Hthis.
  - repeat split.
    + intros Hmissing%misconfigured_spec. congruence.
    + intros e He. discriminate He.
    + intros this _ Hmissing%misconfigured_spec. congruence.
Qed.

(** C8.  Given a configuration object whose [token], [secret] and [server]
    are truthy, construction succeeds, and [getConfig] returns the effective
    configuration: every key the caller supplied has the caller's value,
    every other key its default, so [protocol] is "http" and [port] is 80
    when the caller omitted them. *)
Theorem SirportlyAPI_valid_config (o : gmap string value) :
  truthy (prop o "token") = true →
  truthy (prop o "secret") = true →
  truthy (prop o "server") = true →
  ∃ this cfg,
    outcome (SirportlyAPI (VObj o)) = Normal this
    ∧ getConfig this = VObj cfg
    ∧ (∀ k v, k ∉ merge_skipped → o !! k = Some v → cfg !! k = Some v)
    ∧ (∀ k, o !! k = None → cfg !! k = _default_config !! k)
    ∧ (o !! "protocol" = None → cfg !! "protocol" = Some (VStr "http"))
    ∧ (o !! "port" = None → cfg !! "port" = Some (VNum 80)).
Proof.
  intros Ht Hs Hv.
  exists {| _config := merged_config (VObj o) |}, (merged_config (VObj o)).
  split; [| split; [reflexivity | repeat split]].
  - rewrite SirportlyAPI_unfold. unfold misconfigured.
    rewrite !merged_config_prop_given
      by (first [ not_skipped | by apply truthy_prop_is_Some ]).
    by rewrite Ht, Hs, Hv.
  - intros k v Hk Hkv. rewrite merged_config_object. by apply merge_lookup_item.
  - intros k Hk. rewrite merged_config_object. by apply merge_lookup_base.
  - intros Hk. rewrite merged_config_object, merge_lookup_base by done. reflexivity.
  - intros Hk. rewrite merged_config_object, merge_lookup_base by done. reflexivity.
Qed.

(** *** The dispatch routine *)

Lemma callback_count_app (t1 t2 : list event) :
  callback_count (t1 ++ t2) = (callback_count t1 + callback_count t2)%nat.
Proof. unfold callback_count. by rewrite List.filter_app, length_app. Qed.

Lemma invoke_function (f : nat) (args : list value) :
  invoke (VFun f) args = ([ECallback f args], apply_fn f VUndefined args).
Proof. reflexivity. Qed.

Lemma invoke_at_most_once (callee : value) (args : list value) :
  (callback_count (trace (invoke callee args)) ≤ 1)%nat.
Proof. destruct callee; cbn; lia. Qed.

Lemma invoke_discard (callee : value) (args : list value) :
  (invoke callee args;; mret VUndefined) =
  (trace (invoke callee args), discard (outcome (invoke callee args))).
Proof.
  rewrite M_bind_unfold. unfold trace, outcome.
  destruct (invoke callee args) as [t [r | e]]; cbn; [| reflexivity].
  by rewrite app_nil_r.
Qed.

Lemma invoke_discard_at_most_once (callee : value) (args : list value) :
  (callback_count (trace (invoke callee args;; mret VUndefined)) ≤ 1)%nat.
Proof. rewrite invoke_discard. apply invoke_at_most_once. Qed.

Lemma bind_lift_count {A B} (c : completion A) (k : A → M B) (n : nat) :
  (∀ a, callback_count (trace (k a)) ≤ n)%nat →
  (callback_count (trace (lift c ≫= k)) ≤ n)%nat.
Proof.
  intros H. destruct c as [a | e].
  - rewrite bind_lift_Normal. apply H.
  - cbn. lia.
Qed.

(** The response handler calls the completion callback at most once,
    whatever the transport answers. *)
Lemma on_response_at_most_once (h : handler) (error : value) (statusCode : Z)
  (body : string) :
  (callback_count (trace (on_response h error statusCode body)) ≤ 1)%nat.
Proof.
  unfold on_response.
  destruct (truthy error); [apply invoke_at_most_once |].
  rewrite bind_emit. unfold trace. cbn [fst].
  change (?e :: ?t) with ([e] ++ t)%list. rewrite callback_count_app.
  change (callback_count [EDebug _ _]) with 0%nat. cbn [Nat.add].
  apply bind_lift_count. intros body_json.
  destruct (out_of_range statusCode); [| apply invoke_discard_at_most_once].
  apply bind_lift_count. intros single.
  destruct (truthy single).
  - apply bind_lift_count. intros e. apply invoke_at_most_once.
  - apply bind_lift_count. intros plural.
    destruct (truthy plural); [| apply invoke_discard_at_most_once].
    apply bind_lift_count. intros e. apply invoke_at_most_once.
Qed.

(** [request] itself never calls the completion callback: it only installs
    the handler. *)
Lemma request_no_callback (this : client) (uri : string) (options callback : value) :
  callback_count (trace (request this uri options callback)) = 0%nat.
Proof.
  unfold request.
  destruct (negb (truthy callback) || negb (String.eqb (typeof callback) "function")).
  - by rewrite new_Error_string, bind_lift_Normal.
  - destruct (endpoint this uri) as [url | e]; [| reflexivity].
    by rewrite bind_lift_Normal.
Qed.

Lemma dispatch_trace (this : client) (uri : string) (options callback : value)
  (error : value) (statusCode : Z) (body : string) :
  trace (dispatch this uri options callback error statusCode body) =
  match outcome (request this uri options callback) with
  | Normal _ =>
      (trace (request this uri options callback) ++
       trace (on_response {| h_uri := uri; h_callback := callback |}
                error statusCode body))%list
  | Throw _ => trace (request this uri options callback)
  end.
Proof.
  unfold dispatch. rewrite M_bind_unfold. unfold outcome, trace.
  by destruct (request this uri options callback).2.
Qed.

(** X15.  A dispatch calls the completion callback at most once, whatever
    the options, the answer of the transport and the behaviour of the
    callback are. *)
Theorem dispatch_at_most_once (this : client) (uri : string)
  (options callback : value) (error : value) (statusCode : Z) (body : string) :
  (callback_count
     (trace (dispatch this uri options callback error statusCode body)) ≤ 1)%nat.
Proof.
  rewrite dispatch_trace.
  destruct (outcome (request this uri options callback)).
  - rewrite callback_count_app, request_no_callback. apply on_response_at_most_once.
  - rewrite request_no_callback. lia.
Qed.

Lemma out_of_range_spec (statusCode : Z) :
  out_of_range statusCode = true ↔ ¬ (200 ≤ statusCode ≤ 299).
Proof. unfold out_of_range. lia. Qed.

Lemma new_Error_truthy (v : value) (rest : list value) :
  truthy v = true →
  new_Error (v :: rest) = (ToString v ≫= λ s, mret (VError "Error" s)).
Proof. by destruct v. Qed.

(** The handler up to the decoding of the body, when the transport reported
    no error. *)
Lemma on_response_decoded (h : handler) (error : value) (statusCode : Z)
  (body : string) (body_json : value) :
  truthy error = false → JSON_parse body = Normal body_json →
  on_response h error statusCode body =
  (emit (EDebug "Request to [%d] -> [%s]" [VNum statusCode; VStr (h_uri h)]);;
   if out_of_range statusCode then
     single ← lift (get_prop body_json "error");
     if truthy single then
       e ← lift (new_Error [single]); invoke (h_callback h) [e]
     else
       plural ← lift (get_prop body_json "errors");
       if truthy plural then
         e ← lift (new_Error [VStr body; VNum statusCode; VStr body]);
         invoke (h_callback h) [e]
       else invoke (h_callback h) [VNull; body_json];; mret VUndefined
   else invoke (h_callback h) [VNull; body_json];; mret VUndefined).
Proof.
  intros He Hp. unfold on_response. rewrite He, Hp.
  rewrite !bind_emit. by rewrite bind_lift_Normal.
Qed.

(** Transport failure: the callback gets the transport's error, and nothing
    is decoded. *)
Lemma on_response_transport_error (h : handler) (f : nat) (error : value)
  (statusCode : Z) (body : string) :
  h_callback h = VFun f → truthy error = true →
  on_response h error statusCode body =
  ([ECallback f [error]], apply_fn f VUndefined [error]).
Proof. intros Hf He. unfold on_response. by rewrite He, Hf. Qed.

(** Status in [200, 299]: the callback gets [(null, decodedBody)], and the
    handler answers [undefined] unless the callback throws. *)
Lemma on_response_success (h : handler) (f : nat) (error : value)
  (statusCode : Z) (body : string) (body_json : value) :
  h_callback h = VFun f → truthy error = false →
  JSON_parse body = Normal body_json → 200 ≤ statusCode ≤ 299 →
  on_response h error statusCode body =
  ([EDebug "Request to [%d] -> [%s]" [VNum statusCode; VStr (h_uri h)];
    ECallback f [VNull; body_json]],
   discard (apply_fn f VUndefined [VNull; body_json])).
Proof.
  intros Hf He Hp Hs. rewrite (on_response_decoded _ _ _ _ _ He Hp).
  assert (out_of_range statusCode = false) as ->.
  { apply not_true_is_false. rewrite out_of_range_spec. tauto. }
  by rewrite Hf, invoke_discard, invoke_function.
Qed.

(** X17.  Plural-errors envelope: on a status outside [200, 299], with a
    falsy [error] and a truthy [errors] field, the callback is called once
    with an error that has the raw body as its message and nothing else;
    the error is the same for every such status. *)
Theorem on_response_plural_errors (h : handler) (f : nat) (error : value)
  (statusCode : Z) (body : string) (body_json single plural : value) :
  h_callback h = VFun f → truthy error = false →
  JSON_parse body = Normal body_json → ¬ (200 ≤ statusCode ≤ 299) →
  get_prop body_json "error" = Normal single → truthy single = false →
  get_prop body_json "errors" = Normal plural → truthy plural = true →
  on_response h error statusCode body =
  ([EDebug "Request to [%d] -> [%s]" [VNum statusCode; VStr (h_uri h)];
    ECallback f [VError "Error" body]],
   apply_fn f VUndefined [VError "Error" body]).
Proof.
  intros Hf He Hp Hs H1 Ht1 H2 Ht2. rewrite (on_response_decoded _ _ _ _ _ He Hp).
  apply out_of_range_spec in Hs. rewrite Hs, H1, bind_emit, bind_lift_Normal, Ht1.
  rewrite H2, bind_lift_Normal, Ht2, new_Error_string, bind_lift_Normal.
  by rewrite Hf.
Qed.

(** Neither envelope on a status out of range, for a decoded body whose
    properties can be read: the handler goes on to the success path. *)
Lemma on_response_fallthrough (h : handler) (f : nat) (error : value)
  (statusCode : Z) (body : string) (body_json single plural : value) :
  h_callback h = VFun f → truthy error = false →
  JSON_parse body = Normal body_json → ¬ (200 ≤ statusCode ≤ 299) →
  get_prop body_json "error" = Normal single → truthy single = false →
  get_prop body_json "errors" = Normal plural → truthy plural = false →
  on_response h error statusCode body =
  ([EDebug "Request to [%d] -> [%s]" [VNum statusCode; VStr (h_uri h)];
    ECallback f [VNull; body_json]],
   discard (apply_fn f VUndefined [VNull; body_json])).
Proof.
  intros Hf He Hp Hs H1 Ht1 H2 Ht2. rewrite (on_response_decoded _ _ _ _ _ He Hp).
  apply out_of_range_spec in Hs. rewrite Hs, H1, bind_emit, bind_lift_Normal, Ht1.
  rewrite H2, bind_lift_Normal, Ht2.
  by rewrite Hf, invoke_discard, invoke_function.
Qed.

(** X18.  A body that decodes to [null] on a status out of range: reading
    [body_json.error] throws, and the handler ends there with a
    [TypeError], after the diagnostic line and without calling the
    callback. *)
Theorem on_response_null_body (h : handler) (error : value) (statusCode : Z)
  (body : string) :
  truthy error = false → JSON_parse body = Normal VNull →
  ¬ (200 ≤ statusCode ≤ 299) →
  on_response h error statusCode body =
  ([EDebug "Request to [%d] -> [%s]" [VNum statusCode; VStr (h_uri h)]],
   Throw (TypeError "Cannot read properties of null (reading 'error')")).
Proof.
  intros He Hp Hs. rewrite (on_response_decoded _ _ _ _ _ He Hp).
  apply out_of_range_spec in Hs. by rewrite Hs.
Qed.

Lemma get_prop_readable (v : value) (k k' : string) (x : value) :
  get_prop v k = Normal x → ∃ y, get_prop v k' = Normal y.
Proof. destruct v; cbn; intros H; try discriminate H; eauto. Qed.

(** X16.  The callback is called exactly once on the paths of the handler
    that end in a call: a transport error; a decoded body with a status in range;
    and, on a status out of range, a decoded body whose properties can be
    read (any value but [null]) and whose truthy [error] field, if it has
    one, converts to a string. *)
Theorem on_response_exactly_once (h : handler) (f : nat) (error : value)
  (statusCode : Z) (body : string) :
  h_callback h = VFun f →
  (truthy error = true
   ∨ ∃ body_json,
       truthy error = false ∧ JSON_parse body = Normal body_json
       ∧ (200 ≤ statusCode ≤ 299
          ∨ ∃ single,
              get_prop body_json "error" = Normal single
              ∧ (truthy single = true → ∃ s, ToString single = Normal s))) →
  callback_count (trace (on_response h error statusCode body)) = 1%nat.
Proof.
  intros Hf [He | (body_json & He & Hp & [Hs | (single & H1 & Hconv)])].
  - by rewrite (on_response_transport_error _ _ _ _ _ Hf He).
  - by rewrite (on_response_success _ _ _ _ _ _ Hf He Hp Hs).
  - destruct (decide (200 ≤ statusCode ≤ 299)) as [Hs | Hs].
    { by rewrite (on_response_success _ _ _ _ _ _ Hf He Hp Hs). }
    rewrite (on_response_decoded _ _ _ _ _ He Hp).
    apply out_of_range_spec in Hs.
    rewrite Hs, H1, bind_emit, bind_lift_Normal.
    destruct (truthy single) eqn:Ht1.
    + destruct (Hconv eq_refl) as [s Hm].
      rewrite (new_Error_truthy _ _ Ht1), Hm.
      cbn [mbind completion_mbind completion_bind mret completion_ret].
      by rewrite bind_lift_Normal, Hf.
    + destruct (get_prop_readable _ _ "errors" _ H1) as [plural H2].
      rewrite H2, bind_lift_Normal.
      destruct (truthy plural).
      * by rewrite new_Error_string, bind_lift_Normal, Hf.
      * by rewrite Hf, invoke_discard, invoke_function.
Qed.


(** C9.  When the transport reported no error and the body does not decode,
    the exception of [JSON.parse] leaves the handler uncaught, after the
    diagnostic line, and the completion callback is not called; so the
    whole dispatch never calls it. *)
Theorem on_response_parse_failure (this : client) (uri : string)
  (options callback : value) (error : value) (statusCode : Z) (body : string)
  (e : value) :
  truthy error = false → JSON_parse body = Throw e →
  on_response {| h_uri := uri; h_callback := callback |} error statusCode body =
    ([EDebug "Request to [%d] -> [%s]" [VNum statusCode; VStr uri]], Throw e)
  ∧ callback_count
      (trace (dispatch this uri options callback error statusCode body)) = 0%nat.
Proof.
  intros He Hp.
  assert (on_response {| h_uri := uri; h_callback := callback |} error statusCode body =
    ([EDebug "Request to [%d] -> [%s]" [VNum statusCode; VStr uri]], Throw e)) as Hh.
  { unfold on_response. rewrite He, Hp. reflexivity. }
  split; [exact Hh |].
  rewrite dispatch_trace.
  destruct (outcome (request this uri options callback)).
  - rewrite callback_count_app, request_no_callback, Hh. reflexivity.
  - apply request_no_callback.
Qed.

(** *** The transport options *)

(** What [request] emits when it gets as far as the transport. *)
Lemma request_transport (this : client) (uri : string) (options callback : value)
  (opts : gmap string value) (h : handler) :
  ETransport opts h ∈ trace (request this uri options callback) →
  ∃ url, endpoint this uri = Normal url
         ∧ opts = merge (VObj (default_options this url)) options
         ∧ h = {| h_uri := uri; h_callback := callback |}
         ∧ typeof callback = "function".
Proof.
  unfold request.
  destruct (String.eqb (typeof callback) "function") eqn:Hty.
  2:{ rewrite orb_true_r, new_Error_string, bind_lift_Normal.
      cbn. intros H. by apply elem_of_nil in H. }
  destruct (truthy callback).
  2:{ cbn [negb orb]. rewrite new_Error_string, bind_lift_Normal.
      cbn. intros H. by apply elem_of_nil in H. }
  cbn [negb orb].
  destruct (endpoint this uri) as [url | e].
  2:{ cbn. intros H. by apply elem_of_nil in H. }
  rewrite bind_lift_Normal, bind_emit. unfold trace. cbn [fst mret M_ret].
  intros H. apply list_elem_of_singleton in H. injection H as -> ->.
  exists url. repeat split. by apply String.eqb_eq.
Qed.

(** [request] reaches the transport once when the callback is a function
    and the endpoint can be built. *)
Lemma request_dispatched (this : client) (uri url : string) (options : value)
  (f : nat) :
  endpoint this uri = Normal url →
  request this uri options (VFun f) =
  ([ETransport (merge (VObj (default_options this url)) options)
      {| h_uri := uri; h_callback := VFun f |}], Normal VUndefined).
Proof. intros H. unfold request. cbn. by rewrite H. Qed.

(** C3, as amended.  The options handed to the transport carry the header
    map made of [X-Auth-Token] and [X-Auth-Secret], set from the configured
    token and secret, whenever the caller's options have no [headers] key of
    their own; a [headers] key of the caller replaces that map whole. *)
Theorem request_headers (this : client) (uri : string) (options callback : value)
  (opts : gmap string value) (h : handler) :
  ETransport opts h ∈ trace (request this uri options callback) →
  ((∀ o, options = VObj o → o !! "headers" = None) →
     opts !! "headers" =
     Some (VObj {[ "X-Auth-Token" := prop (_config this) "token";
                   "X-Auth-Secret" := prop (_config this) "secret" ]}))
  ∧ (∀ o v, options = VObj o → o !! "headers" = Some v →
       opts !! "headers" = Some v).
Proof.
  intros (url & _ & -> & _)%request_transport. split.
  - intros Hno. destruct options; try reflexivity.
    rewrite merge_lookup_base by (by apply Hno). reflexivity.
  - intros o v -> Hv. apply merge_lookup_item; [not_skipped | exact Hv].
Qed.

(** *** Convenience methods *)

(** C2, at the call that passes the callback first.  [tickets] sets [page]
    to 1 and then [callback] to [page]: [request] is called with 1 in place
    of the callback and throws; nothing is dispatched. *)
Theorem tickets_callback_first (this : client) (f : nat) (callback : value) :
  tickets this (VFun f) callback =
  ([], Throw (VError "Error" "Callback parameter must be a fuction")).
Proof. reflexivity. Qed.

(** With a page (or nothing) first and the callback second, [tickets]
    dispatches to [/api/v2/tickets/all] with the page, 1 when it is falsy, as
    query-string parameter. *)
Lemma tickets_page (this : client) (page : value) (f : nat) (url : string) :
  typeof page ≠ "function" →
  endpoint this "/api/v2/tickets/all" = Normal url →
  ∃ opts,
    tickets this page (VFun f) =
      ([ETransport opts {| h_uri := "/api/v2/tickets/all"; h_callback := VFun f |}],
       Normal VUndefined)
    ∧ opts !! "method" = Some (VStr "GET")
    ∧ opts !! "url" = Some (VStr url)
    ∧ opts !! "qs" = Some (VObj {[ "page" := or_else page (VNum 1) ]}).
Proof.
  intros Hp Hu. unfold tickets.
  destruct (String.eqb (typeof page) "function") eqn:Hty.
  { by apply String.eqb_eq in Hty. }
  rewrite (request_dispatched _ _ _ _ _ Hu).
  eexists. split; [reflexivity |]. repeat split.
Qed.

(** C10.  In [create_user] the extra [params] are merged over the three
    named fields, the keys of [params] winning: the query-string mapping
    handed to the transport has every key of [params] with the value of
    [params], so a key [email_address], [first_name] or [last_name] of
    [params] replaces the positional argument, and it has the positional
    argument under each named field that [params] does not mention. *)
Theorem create_user_params_win (this : client)
  (email first last callback : value) (o : gmap string value)
  (k : string) (v : value) (opts : gmap string value) (h : handler) :
  k ∈ ["email_address"; "first_name"; "last_name"] →
  o !! k = Some v →
  ETransport opts h ∈ trace (create_user this email first last (VObj o) callback) →
  ∃ qs,
    opts !! "qs" = Some (VObj qs)
    ∧ qs !! k = Some v
    ∧ (∀ k' v', k' ∉ merge_skipped → o !! k' = Some v' → qs !! k' = Some v')
    ∧ (∀ k', o !! k' = None →
         qs !! k' =
         ({[ "email_address" := email; "first_name" := first;
             "last_name" := last ]} : gmap string value) !! k').
Proof.
  intros Hk Hv (url & _ & -> & _)%request_transport.
  exists (create_user_qs email first last (VObj o)).
  split; [| split; [| split]].
  - apply merge_lookup_item; [not_skipped | reflexivity].
  - apply merge_lookup_item; [| exact Hv].
    rewrite !elem_of_cons in Hk.
    destruct Hk as [-> | [-> | [-> | Hk]]]; [not_skipped .. |].
    by apply elem_of_nil in Hk.
  - intros k' v' Hk' Hv'. by apply merge_lookup_item.
  - intros k' Hk'. by apply merge_lookup_base.
Qed.

(** *** More on the constructor *)

Lemma merged_config_not_object (config : value) :
  (∀ o, config ≠ VObj o) → merged_config config = _default_config.
Proof.
  intros H. unfold merged_config, or_else.
  destruct config; try reflexivity; try (by destruct (truthy _)).
  by destruct (H props).
Qed.

(** X1.  Construction from anything but a plain object (no argument, [null],
    a number, a string, an array, a function) throws the misconfiguration
    error: the defaults alone hold no token, secret or server. *)
Theorem SirportlyAPI_rejects_non_object (config : value) :
  (∀ o, config ≠ VObj o) →
  SirportlyAPI config =
  ([], Throw (VError "Error"
     "Misconfiguration, token, secret and server required in the config.")).
Proof.
  intros H. by rewrite SirportlyAPI_unfold, (merged_config_not_object _ H).
Qed.

(** *** More on [request] *)

(** X2.  [request] called with a callback that is not a function throws
    "Callback parameter must be a fuction" at once: nothing is handed to the
    transport and no diagnostic line is written. *)
Theorem request_rejects_non_function (this : client) (uri : string)
  (options callback : value) :
  typeof callback ≠ "function" →
  request this uri options callback =
  ([], Throw (VError "Error" "Callback parameter must be a fuction")).
Proof.
  intros H. unfold request.
  apply String.eqb_neq in H. rewrite H, orb_true_r.
  by rewrite new_Error_string, bind_lift_Normal.
Qed.

(** X3.  The options handed to the transport are the caller's over the
    defaults, key by key: a key the caller gives (any but the names [merge]
    skips) has the caller's value, [method] and [url] included; a key the
    caller does not give has its default, which is all of them when the
    caller's options are not a plain object. *)
Theorem request_options_lookup (this : client) (uri : string)
  (options callback : value) (opts : gmap string value) (h : handler)
  (k : string) :
  ETransport opts h ∈ trace (request this uri options callback) →
  ∃ url,
    endpoint this uri = Normal url
    ∧ (∀ o v, options = VObj o → k ∉ merge_skipped → o !! k = Some v →
         opts !! k = Some v)
    ∧ ((∀ o, options = VObj o → o !! k = None) →
         opts !! k = default_options this url !! k).
Proof.
  intros (url & Hu & -> & _)%request_transport.
  exists url. split; [exact Hu |]. split.
  - intros o v -> Hk Hv. by apply merge_lookup_item.
  - intros Hno. destruct options; try reflexivity.
    apply merge_lookup_base. by apply Hno.
Qed.

Lemma string_append_assoc (a b c : string) : (a ++ b) ++ c = a ++ b ++ c.
Proof.
  induction a as [| x a IH]; [reflexivity |].
  change (String x ((a ++ b) ++ c) = String x (a ++ b ++ c)). by rewrite IH.
Qed.




(** *** Whole dispatches *)

(** X6.  A dispatch whose transport fails: the options go to the transport,
    then the callback is called with the transport's error alone.  No
    diagnostic line is written and the body is not decoded, whatever the
    status and the body are. *)
Theorem dispatch_transport_error (this : client) (uri url : string)
  (options : value) (f : nat) (error : value) (statusCode : Z) (body : string) :
  endpoint this uri = Normal url → truthy error = true →
  dispatch this uri options (VFun f) error statusCode body =
  ([ETransport (merge (VObj (default_options this url)) options)
      {| h_uri := uri; h_callback := VFun f |};
    ECallback f [error]],
   apply_fn f VUndefined [error]).
Proof.
  intros Hu He. unfold dispatch.
  rewrite (request_dispatched _ _ _ _ _ Hu), M_bind_unfold.
  by rewrite (on_response_transport_error
                {| h_uri := uri; h_callback := VFun f |} f _ _ _ eq_refl He).
Qed.

(** X7.  A dispatch answered with a status in [200, 299] and a body that
    decodes: one call to the transport, one diagnostic line, one call of the
    callback with [(null, decodedBody)].  The decoded body is not looked
    into, so an [error] or [errors] field in it changes nothing. *)
Theorem dispatch_success_trace (this : client) (uri url : string)
  (options : value) (f : nat) (error : value) (statusCode : Z) (body : string)
  (body_json : value) :
  endpoint this uri = Normal url → truthy error = false →
  JSON_parse body = Normal body_json → 200 ≤ statusCode ≤ 299 →
  trace (dispatch this uri options (VFun f) error statusCode body) =
  [ETransport (merge (VObj (default_options this url)) options)
     {| h_uri := uri; h_callback := VFun f |};
   EDebug "Request to [%d] -> [%s]" [VNum statusCode; VStr uri];
   ECallback f [VNull; body_json]].
Proof.
  intros Hu He Hp Hs. rewrite dispatch_trace.
  rewrite (request_dispatched _ _ _ _ _ Hu). cbn [outcome trace fst snd].
  by rewrite (on_response_success
                {| h_uri := uri; h_callback := VFun f |} f _ _ _ _ eq_refl He Hp Hs).
Qed.

(** X8.  On a status outside [200, 299], a decoded body whose [error] and
    [errors] fields are both falsy (absent, [null], [false], 0 or the empty
    string) is reported as a success: the callback is called once with
    [(null, decodedBody)]. *)
Theorem on_response_no_envelope_trace (h : handler) (f : nat) (error : value)
  (statusCode : Z) (body : string) (body_json single plural : value) :
  h_callback h = VFun f → truthy error = false →
  JSON_parse body = Normal body_json → ¬ (200 ≤ statusCode ≤ 299) →
  get_prop body_json "error" = Normal single → truthy single = false →
  get_prop body_json "errors" = Normal plural → truthy plural = false →
  trace (on_response h error statusCode body) =
  [EDebug "Request to [%d] -> [%s]" [VNum statusCode; VStr (h_uri h)];
   ECallback f [VNull; body_json]].
Proof.
  intros Hf He Hp Hs H1 Ht1 H2 Ht2.
  by rewrite (on_response_fallthrough _ _ _ _ _ _ _ _ Hf He Hp Hs H1 Ht1 H2 Ht2).
Qed.

(** What it means for a computation to let an exception of the callback
    through. *)
Lemma invoke_propagates (callee : value) (actual : list value)
  (f : nat) (args : list value) (e : value) :
  ECallback f args ∈ trace (invoke callee actual) →
  apply_fn f VUndefined args = Throw e →
  outcome (invoke callee actual) = Throw e.
Proof.
  destruct callee; cbn; intros Hin; try (by apply elem_of_nil in Hin).
  apply list_elem_of_singleton in Hin. injection Hin as -> ->.
  intros ->. reflexivity.
Qed.

Lemma invoke_discard_propagates (callee : value) (actual : list value)
  (f : nat) (args : list value) (e : value) :
  ECallback f args ∈ trace (invoke callee actual;; mret VUndefined) →
  apply_fn f VUndefined args = Throw e →
  outcome (invoke callee actual;; mret VUndefined) = Throw e.
Proof.
  rewrite invoke_discard. unfold trace at 1, outcome at 1. cbn [fst snd].
  intros Hin Hthrow. by rewrite (invoke_propagates _ _ _ _ _ Hin Hthrow).
Qed.

Lemma bind_lift_propagates {A} (c : completion A) (k : A → M value)
  (f : nat) (args : list value) (e : value) :
  (∀ a, ECallback f args ∈ trace (k a) → outcome (k a) = Throw e) →
  ECallback f args ∈ trace (lift c ≫= k) → outcome (lift c ≫= k) = Throw e.
Proof.
  intros H. destruct c as [a | e'].
  - rewrite bind_lift_Normal. apply H.
  - cbn. intros Hin. by apply elem_of_nil in Hin.
Qed.

(** X9.  An exception thrown by the completion callback is not caught: on
    whichever path the handler calls the callback, the handler ends with
    the exception the callback threw. *)
Theorem callback_exception_propagates (h : handler) (error : value)
  (statusCode : Z) (body : string) (f : nat) (args : list value) (e : value) :
  ECallback f args ∈ trace (on_response h error statusCode body) →
  apply_fn f VUndefined args = Throw e →
  outcome (on_response h error statusCode body) = Throw e.
Proof.
  intros Hin Hthrow. revert Hin. unfold on_response.
  destruct (truthy error).
  { intros Hin. by apply (invoke_propagates _ _ f args). }
  rewrite bind_emit. unfold trace, outcome. cbn [fst snd].
  intros [Hd | Hin]%elem_of_cons; [discriminate Hd |]. revert Hin.
  apply bind_lift_propagates. intros body_json.
  destruct (out_of_range statusCode).
  2:{ intros Hin. by apply (invoke_discard_propagates _ _ f args). }
  apply bind_lift_propagates. intros single.
  destruct (truthy single).
  - apply bind_lift_propagates. intros err Hin.
    by apply (invoke_propagates _ _ f args).
  - apply bind_lift_propagates. intros plural.
    destruct (truthy plural).
    + apply bind_lift_propagates. intros err Hin.
      by apply (invoke_propagates _ _ f args).
    + intros Hin. by apply (invoke_discard_propagates _ _ f args).
Qed.

(** *** The convenience methods, all at once *)

Lemma request_guard (this : client) (uri : string) (options callback : value) :
  typeof callback ≠ "function" →
  request this uri options callback =
  ([], Throw (VError "Error" "Callback parameter must be a fuction")).
Proof.
  intros H. unfold request.
  apply String.eqb_neq in H. rewrite H, orb_true_r.
  by rewrite new_Error_string, bind_lift_Normal.
Qed.

Ltac dom_subset := apply (bool_decide_unpack _); vm_compute; exact I.

(** Every convenience method is one call of [request] on its own path with
    an options object of its own making, which never has a [headers] or
    [url] key; [tickets] called with a function first is the exception. *)
Lemma call_options (this : client) (op : operation) (callback : value) :
  (∃ page, op = OpTickets page ∧ typeof page = "function")
  ∨ ∃ o : gmap string value,
      call this op callback = request this (op_path op) (VObj o) callback
      ∧ o !! "headers" = None
      ∧ o !! "url" = None
      ∧ default (VStr "GET") (o !! "method") = VStr (op_method op)
      ∧ o !! "qs" = op_qs op
      ∧ o !! "form" = op_form op
      ∧ dom o ⊆ ({[ "method"; "qs"; "form" ]} : gset string).
Proof.
  destruct op;
    try (right; eexists; split; [reflexivity |];
         repeat split; first [ reflexivity | dom_subset ]).
  destruct (String.eqb (typeof page) "function") eqn:Hty.
  - left. exists page. split; [reflexivity | by apply String.eqb_eq].
  - right. exists {[ "qs" := VObj {[ "page" := or_else page (VNum 1) ]} ]}.
    split; [cbn [call]; unfold tickets; by rewrite Hty |].
    repeat split; first [ reflexivity | dom_subset ].
Qed.

Lemma constructed_endpoint (o : gmap string value) (server uri : string)
  (this : client) :
  outcome (SirportlyAPI (VObj o)) = Normal this →
  o !! "server" = Some (VStr server) →
  o !! "protocol" = None → o !! "port" = None →
  endpoint this uri = Normal ("http://" ++ server ++ ":80" ++ uri).
Proof.
  intros Hthis Hs Hp Ht. rewrite SirportlyAPI_unfold in Hthis.
  destruct (misconfigured (merged_config (VObj o))); [discriminate Hthis |].
  injection Hthis as <-.
  assert (prop (merged_config (VObj o)) "server" = VStr server) as Hserver.
  { assert ("server" ∉ merge_skipped) as Hk by not_skipped.
    unfold prop. rewrite merged_config_object.
    by rewrite (merge_lookup_item _ _ _ _ Hk Hs). }
  assert (prop (merged_config (VObj o)) "protocol" = VStr "http") as Hprotocol.
  { unfold prop. by rewrite merged_config_object, merge_lookup_base. }
  assert (prop (merged_config (VObj o)) "port" = VNum 80) as Hport.
  { unfold prop. by rewrite merged_config_object, merge_lookup_base. }
  unfold endpoint, add_string_r, add_string_l. cbn [_config].
  rewrite Hserver, Hprotocol, Hport.
  cbn [ToPrimitive mbind completion_mbind completion_bind mret completion_ret].
  f_equal. by rewrite !string_append_assoc.
Qed.

(** X5.  A client built from a configuration that names its server as a
    string and leaves [protocol] and [port] out hands the transport the
    address [http://server:80] followed by the path, as the [url] option:
    on every call of [request] whose options have no [url] key of their
    own, and on every call of a convenience method. *)
Theorem constructed_client_endpoint (o : gmap string value) (server : string)
  (this : client) :
  outcome (SirportlyAPI (VObj o)) = Normal this →
  o !! "server" = Some (VStr server) →
  o !! "protocol" = None → o !! "port" = None →
  (∀ uri options callback opts h,
     ETransport opts h ∈ trace (request this uri options callback) →
     (∀ o', options = VObj o' → o' !! "url" = None) →
     opts !! "url" = Some (VStr ("http://" ++ server ++ ":80" ++ uri)))
  ∧ (∀ op callback opts h,
       ETransport opts h ∈ trace (call this op callback) →
       opts !! "url" = Some (VStr ("http://" ++ server ++ ":80" ++ op_path op))).
Proof.
  intros Hthis Hs Hp Ht.
  assert (∀ uri options callback opts h,
     ETransport opts h ∈ trace (request this uri options callback) →
     (∀ o', options = VObj o' → o' !! "url" = None) →
     opts !! "url" = Some (VStr ("http://" ++ server ++ ":80" ++ uri))) as Hreq.
  { intros uri options callback opts h
      (url & Hurl & -> & _)%request_transport Hno.
    rewrite (constructed_endpoint _ _ uri _ Hthis Hs Hp Ht) in Hurl.
    injection Hurl as <-.
    destruct options; try reflexivity.
    rewrite merge_lookup_base by (by apply Hno). reflexivity. }
  split; [exact Hreq |].
  intros op callback opts h.
  destruct (call_options this op callback)
    as [(page & -> & Hpage) | (o' & -> & _ & Hu & _)].
  - cbn [call]. unfold tickets.
    apply String.eqb_eq in Hpage. rewrite Hpage.
    rewrite request_guard by discriminate.
    intros Hin. by apply elem_of_nil in Hin.
  - intros Hin. apply (Hreq _ _ _ _ _ Hin). by intros ? [= <-].
Qed.

(** X10.  No convenience method reaches the transport without a callback
    that is a function: each of them throws "Callback parameter must be a
    fuction" at once, as [request] itself does. *)
Theorem call_rejects_non_function (this : client) (op : operation)
  (callback : value) :
  typeof callback ≠ "function" →
  call this op callback =
  ([], Throw (VError "Error" "Callback parameter must be a fuction")).
Proof.
  intros Hcb.
  destruct (call_options this op callback)
    as [(page & -> & Hpage) | (o & -> & _)].
  - cbn [call]. unfold tickets.
    apply String.eqb_eq in Hpage. rewrite Hpage. by apply request_guard.
  - by apply request_guard.
Qed.

(** X11.  Whatever its arguments, a convenience method that reaches the
    transport does so on its own path, with its own method (POST for
    [submit_ticket], [post_update], [update_ticket], [add_follow_up],
    [create_user] and [spql], GET for the others), the endpoint built from
    the configuration as [url], the two authentication headers, and the
    caller's callback in the handler: no argument of a convenience method
    can replace the method, the address or the headers. *)
Theorem call_route (this : client) (op : operation) (callback : value)
  (opts : gmap string value) (h : handler) :
  ETransport opts h ∈ trace (call this op callback) →
  ∃ url,
    endpoint this (op_path op) = Normal url
    ∧ h = {| h_uri := op_path op; h_callback := callback |}
    ∧ opts !! "method" = Some (VStr (op_method op))
    ∧ opts !! "url" = Some (VStr url)
    ∧ opts !! "headers" = Some (auth_headers this).
Proof.
  destruct (call_options this op callback)
    as [(page & -> & Hpage) | (o & -> & Hh & Hu & Hm & _)].
  - cbn [call]. unfold tickets.
    apply String.eqb_eq in Hpage. rewrite Hpage.
    rewrite request_guard by discriminate.
    intros Hin. by apply elem_of_nil in Hin.
  - intros (url & Hurl & -> & -> & _)%request_transport.
    exists url. repeat split; try assumption.
    + destruct (o !! "method") as [m |] eqn:Hom.
      * cbn in Hm. subst m.
        apply merge_lookup_item; [not_skipped | exact Hom].
      * cbn in Hm. rewrite merge_lookup_base by exact Hom.
        by rewrite <- Hm.
    + by rewrite merge_lookup_base.
    + by rewrite merge_lookup_base.
Qed.

(** X12.  The arguments of a convenience method reach the transport where
    the method puts them and nowhere else: the query string is [reference]
    for [ticket]; [page], or 1 when it is falsy, for [tickets]; the
    parameters, or an empty object when they are falsy, for
    [submit_ticket]; [ticket] for the three update methods, whose updates
    go whole into the form body; [ticket] and [macro] for [run_macro]; the
    three named fields under the parameters for [create_user]; [spql] has
    the query in the form body.  The options hold no key besides [method],
    [url], [headers], [qs] and [form]. *)
Theorem call_parameters (this : client) (op : operation) (callback : value)
  (opts : gmap string value) (h : handler) :
  ETransport opts h ∈ trace (call this op callback) →
  opts !! "qs" = op_qs op
  ∧ opts !! "form" = op_form op
  ∧ dom opts ⊆ ({[ "method"; "url"; "headers"; "qs"; "form" ]} : gset string).
Proof.
  destruct (call_options this op callback)
    as [(page & -> & Hpage) | (o & -> & _ & _ & _ & Hq & Hf & Hdom)].
  - cbn [call]. unfold tickets.
    apply String.eqb_eq in Hpage. rewrite Hpage.
    rewrite request_guard by discriminate.
    intros Hin. by apply elem_of_nil in Hin.
  - intros (url & Hurl & -> & -> & _)%request_transport.
    assert (∀ k, k ∉ merge_skipped →
              merge (VObj (default_options this url)) (VObj o) !! k =
              match o !! k with
              | Some v => Some v
              | None => default_options this url !! k
              end) as Hlookup.
    { intros k Hk. destruct (o !! k) eqn:Hok.
      - by apply merge_lookup_item.
      - by apply merge_lookup_base. }
    repeat split.
    + rewrite Hlookup by not_skipped. rewrite Hq. by destruct (op_qs op).
    + rewrite Hlookup by not_skipped. rewrite Hf. by destruct (op_form op).
    + unfold merge. rewrite dom_union.
      assert (dom (default_options this url) ⊆
                ({[ "method"; "url"; "headers" ]} : gset string)) as Hd
        by dom_subset.
      apply union_subseteq. split.
      * etrans; [apply dom_filter_subseteq |].
        etrans; [exact Hdom | dom_subset].
      * etrans; [exact Hd | dom_subset].
Qed.

(** X13.  Given a callback that is a function and a configuration from
    which the endpoint can be built, a convenience method calls the
    transport once, does nothing else and returns; [tickets] only when its
    first argument is not a function. *)
Theorem call_dispatches_once (this : client) (op : operation) (f : nat)
  (url : string) :
  endpoint this (op_path op) = Normal url →
  (∀ page, op = OpTickets page → typeof page ≠ "function") →
  ∃ opts,
    call this op (VFun f) =
    ([ETransport opts {| h_uri := op_path op; h_callback := VFun f |}],
     Normal VUndefined).
Proof.
  intros Hurl Hpage.
  destruct (call_options this op (VFun f))
    as [(page & -> & Hty) | (o & -> & _)].
  - by destruct (Hpage page eq_refl).
  - eexists. by apply request_dispatched.
Qed.

(** X14.  The query string of [create_user].  When the extra parameters
    are not a plain object (left out, [null], ...) it holds the three named
    fields and nothing else; when they are, each of their keys is added or
    wins, and a named field they do not mention keeps the positional
    argument. *)
Theorem create_user_qs_lookup (email first last params : value) :
  let fields : gmap string value :=
    {[ "email_address" := email; "first_name" := first; "last_name" := last ]} in
  ((∀ o, params ≠ VObj o) → create_user_qs email first last params = fields)
  ∧ (∀ o k v, params = VObj o → k ∉ merge_skipped → o !! k = Some v →
       create_user_qs email first last params !! k = Some v)
  ∧ (∀ o k, params = VObj o → o !! k = None →
       create_user_qs email first last params !! k = fields !! k).
Proof.
  cbn zeta. unfold create_user_qs. repeat split.
  - intros H. by apply merge_not_object.
  - intros o k v -> Hk Hv. by apply merge_lookup_item.
  - intros o k -> Hk. by apply merge_lookup_base.
Qed.

End Runtime.

(** ** The properties on concrete runs

    The runtime is instantiated with [json_parse] and a callback that
    returns [undefined]. *)

(** C1, at a body that decodes to [null] on a status out of range.  The
    text [null] is valid JSON; with status 404 the handler reads
    [body_json.error] on it, which throws: the dispatch ends with an
    uncaught [TypeError] and the completion callback is never called. *)
Theorem dispatch_null_body_never_calls_back :
  let run :=
    dispatch json_parse noop_fn noop_source example_client
      "/api/v2/objects/statuses" (VObj ∅) (VFun 0) VNull 404 "null" in
  json_parse "null" = Normal VNull
  ∧ callback_count (trace run) = 0%nat
  ∧ outcome run =
    Throw (TypeError "Cannot read properties of null (reading 'error')").
Proof. cbn zeta. repeat split; vm_compute; reflexivity. Qed.

(** C4, at status 500 with the body [{ errors : [a, b] }].  The callback
    gets an error whose message is the raw body; the status code is passed
    to the [Error] constructor as a second argument and lost, so the same
    error comes out for status 404. *)
Theorem on_response_plural_errors_500 :
  on_response json_parse noop_fn noop_source example_handler VNull 500 body_errors =
    ([EDebug "Request to [%d] -> [%s]" [VNum 500; VStr "/api/v2/objects/statuses"];
      ECallback 0 [VError "Error" body_errors]],
     Normal VUndefined)
  ∧ List.filter is_callback
      (trace (on_response json_parse noop_fn noop_source example_handler
                VNull 404 body_errors)) =
    [ECallback 0 [VError "Error" body_errors]].
Proof. split; vm_compute; reflexivity. Qed.

(** C6, at status 404 with the body [null].  The decoded body has neither
    field, yet the handler does not reach the success path: reading
    [body_json.error] throws and the callback is not called with
    [(null, null)]. *)
Theorem on_response_null_body_404 :
  json_parse "null" = Normal VNull
  ∧ on_response json_parse noop_fn noop_source example_handler VNull 404 "null" =
    ([EDebug "Request to [%d] -> [%s]" [VNum 404; VStr "/api/v2/objects/statuses"]],
     Throw (TypeError "Cannot read properties of null (reading 'error')"))
  ∧ on_response json_parse noop_fn noop_source example_handler VNull 200 "null" =
    ([EDebug "Request to [%d] -> [%s]" [VNum 200; VStr "/api/v2/objects/statuses"];
      ECallback 0 [VNull; VNull]],
     Normal VUndefined).
Proof. repeat split; vm_compute; reflexivity. Qed.

(** C3 as stated fails: options that carry a [headers] key reach the
    transport without the two authentication headers. *)
Lemma request_headers_replaced :
  let options :=
    VObj {[ "headers" := VObj {[ "Accept" := VStr "application/json" ]} ]} in
  ∃ opts h headers,
    trace (request noop_fn noop_source example_client
             "/api/v2/objects/statuses" options (VFun 0)) = [ETransport opts h]
    ∧ opts !! "headers" = Some (VObj headers)
    ∧ headers !! "X-Auth-Token" = None
    ∧ headers !! "X-Auth-Secret" = None.
Proof.
  cbn zeta. eexists _, _, {[ "Accept" := VStr "application/json" ]}.
  repeat split; vm_compute; reflexivity.
Qed.


(** *** Instances of the theorems *)

Lemma request_headers_witness :
  let options := VObj {[ "qs" := VObj {[ "page" := VNum 2 ]} ]} in
  let opts :=
    merge
      (VObj (default_options example_client
               "http://example.com:80/api/v2/tickets/all"))
      options in
  opts !! "headers" =
  Some (VObj {[ "X-Auth-Token" := VStr "tok"; "X-Auth-Secret" := VStr "sec" ]}).
Proof.
  intros options opts.
  refine (proj1 (request_headers noop_fn noop_source example_client
    "/api/v2/tickets/all" options (VFun 0) opts
    {| h_uri := "/api/v2/tickets/all"; h_callback := VFun 0 |} _) _).
  - vm_compute. apply list_elem_of_here.
  - intros o [= <-]. reflexivity.
Defined.


Lemma SirportlyAPI_valid_config_witness :
  ∃ this cfg,
    outcome (SirportlyAPI noop_fn noop_source (VObj example_config)) = Normal this
    ∧ getConfig this = VObj cfg
    ∧ cfg !! "token" = Some (VStr "tok")
    ∧ cfg !! "protocol" = Some (VStr "http")
    ∧ cfg !! "port" = Some (VNum 80).
Proof.
  destruct (SirportlyAPI_valid_config noop_fn noop_source example_config)
    as (this & cfg & Hok & Hget & Hgiven & _ & Hprotocol & Hport);
    [reflexivity .. |].
  exists this, cfg. repeat split; try assumption.
  - apply Hgiven; [not_skipped | reflexivity].
  - apply Hprotocol. reflexivity.
  - apply Hport. reflexivity.
Defined.

Lemma on_response_parse_failure_witness :
  on_response json_parse noop_fn noop_source
    {| h_uri := "/api/v2/objects/statuses"; h_callback := VFun 0 |}
    VNull 200 "<html>" =
    ([EDebug "Request to [%d] -> [%s]" [VNum 200; VStr "/api/v2/objects/statuses"]],
     Throw (VError "SyntaxError" "Unexpected token in JSON"))
  ∧ callback_count
      (trace (dispatch json_parse noop_fn noop_source example_client
                "/api/v2/objects/statuses" (VObj ∅) (VFun 0) VNull 200 "<html>"))
    = 0%nat.
Proof.
  apply (on_response_parse_failure json_parse noop_fn noop_source example_client
    "/api/v2/objects/statuses" (VObj ∅) (VFun 0) VNull 200 "<html>");
    vm_compute; reflexivity.
Defined.

Lemma create_user_params_win_witness :
  let params : gmap string value :=
    {[ "first_name" := VStr "Anna"; "admin" := VBool true ]} in
  let opts :=
    merge
      (VObj (default_options example_client
               "http://example.com:80/api/v2/users/create"))
      (VObj {[ "method" := VStr "POST";
               "qs" := VObj (create_user_qs (VStr "a@example.com") (VStr "Ann")
                               (VStr "Lee") (VObj params)) ]}) in
  ∃ qs,
    opts !! "qs" = Some (VObj qs)
    ∧ qs !! "first_name" = Some (VStr "Anna")
    ∧ qs !! "admin" = Some (VBool true)
    ∧ qs !! "email_address" = Some (VStr "a@example.com")
    ∧ qs !! "last_name" = Some (VStr "Lee").
Proof.
  intros params opts.
  destruct (create_user_params_win noop_fn noop_source example_client
    (VStr "a@example.com") (VStr "Ann") (VStr "Lee") (VFun 0) params
    "first_name" (VStr "Anna") opts
    {| h_uri := "/api/v2/users/create"; h_callback := VFun 0 |})
    as (qs & Hqs & Hfirst & Hgiven & Hkept).
  - apply (bool_decide_unpack _). vm_compute. exact I.
  - vm_compute. reflexivity.
  - vm_compute. apply list_elem_of_here.
  - exists qs. repeat split; [exact Hqs | exact Hfirst | | |].
    + apply Hgiven; [not_skipped | vm_compute; reflexivity].
    + rewrite Hkept by (vm_compute; reflexivity). vm_compute. reflexivity.
    + rewrite Hkept by (vm_compute; reflexivity). vm_compute. reflexivity.
Defined.

Lemma SirportlyAPI_rejects_non_object_witness :
  SirportlyAPI noop_fn noop_source VUndefined =
  ([], Throw (VError "Error"
     "Misconfiguration, token, secret and server required in the config.")).
Proof.
  apply (SirportlyAPI_rejects_non_object noop_fn noop_source VUndefined).
  intros o H. discriminate H.
Defined.

Lemma request_rejects_non_function_witness :
  request noop_fn noop_source example_client "/api/v2/objects/teams"
    (VObj ∅) (VStr "not a function") =
  ([], Throw (VError "Error" "Callback parameter must be a fuction")).
Proof.
  apply (request_rejects_non_function noop_fn noop_source example_client
           "/api/v2/objects/teams" (VObj ∅) (VStr "not a function")).
  discriminate.
Defined.

Lemma request_options_lookup_witness :
  let options : gmap string value :=
    {[ "method" := VStr "DELETE"; "url" := VStr "http://other.example/" ]} in
  let opts :=
    merge (VObj (default_options example_client
                   "http://example.com:80/api/v2/objects/teams"))
          (VObj options) in
  opts !! "url" = Some (VStr "http://other.example/")
  ∧ opts !! "headers" =
    default_options example_client
      "http://example.com:80/api/v2/objects/teams" !! "headers".
Proof.
  intros options opts.
  split.
  - destruct (request_options_lookup noop_fn noop_source example_client
      "/api/v2/objects/teams" (VObj options) (VFun 0) opts
      {| h_uri := "/api/v2/objects/teams"; h_callback := VFun 0 |} "url")
      as (url & Hurl & Hgiven & _).
    + vm_compute. apply list_elem_of_here.
    + apply (Hgiven options); [reflexivity | not_skipped | reflexivity].
  - destruct (request_options_lookup noop_fn noop_source example_client
      "/api/v2/objects/teams" (VObj options) (VFun 0) opts
      {| h_uri := "/api/v2/objects/teams"; h_callback := VFun 0 |} "headers")
      as (url & Hurl & _ & Hdefault).
    + vm_compute. apply list_elem_of_here.
    + rewrite Hdefault; [reflexivity |]. intros o [= <-]. reflexivity.
Defined.


Lemma constructed_client_endpoint_witness :
  let opts :=
    merge (VObj (default_options example_client
                   "http://example.com:80/api/v2/tickets/spql"))
          (VObj {[ "method" := VStr "POST";
                   "form" := VObj {[ "spql" := VStr "SELECT COUNT" ]} ]}) in
  opts !! "url" = Some (VStr "http://example.com:80/api/v2/tickets/spql").
Proof.
  intros opts.
  destruct (constructed_client_endpoint noop_fn noop_source example_config
              "example.com" example_client) as [_ Hcall];
    [vm_compute; reflexivity .. |].
  apply (Hcall (OpSpql (VStr "SELECT COUNT")) (VFun 0) opts
           {| h_uri := "/api/v2/tickets/spql"; h_callback := VFun 0 |}).
  vm_compute. apply list_elem_of_here.
Defined.

Lemma dispatch_transport_error_witness :
  dispatch json_parse noop_fn noop_source example_client
    "/api/v2/objects/teams" (VObj ∅) (VFun 0) connection_refused 0 "" =
  ([ETransport
      (merge (VObj (default_options example_client
                      "http://example.com:80/api/v2/objects/teams")) (VObj ∅))
      {| h_uri := "/api/v2/objects/teams"; h_callback := VFun 0 |};
    ECallback 0 [connection_refused]],
   Normal VUndefined).
Proof.
  apply (dispatch_transport_error json_parse noop_fn noop_source example_client
           "/api/v2/objects/teams" "http://example.com:80/api/v2/objects/teams"
           (VObj ∅) 0 connection_refused 0 ""); vm_compute; reflexivity.
Defined.

Lemma dispatch_success_trace_witness :
  trace (dispatch json_parse noop_fn noop_source example_client
           "/api/v2/objects/teams" (VObj ∅) (VFun 0) VNull 200 body_not_found) =
  [ETransport
     (merge (VObj (default_options example_client
                     "http://example.com:80/api/v2/objects/teams")) (VObj ∅))
     {| h_uri := "/api/v2/objects/teams"; h_callback := VFun 0 |};
   EDebug "Request to [%d] -> [%s]" [VNum 200; VStr "/api/v2/objects/teams"];
   ECallback 0 [VNull; VObj {[ "error" := VStr "not found" ]}]].
Proof.
  apply (dispatch_success_trace json_parse noop_fn noop_source example_client
           "/api/v2/objects/teams" "http://example.com:80/api/v2/objects/teams"
           (VObj ∅) 0 VNull 200 body_not_found);
    first [ lia | vm_compute; reflexivity ].
Defined.

Lemma on_response_no_envelope_trace_witness :
  trace (on_response json_parse noop_fn noop_source example_handler
           VNull 500 "{}") =
  [EDebug "Request to [%d] -> [%s]" [VNum 500; VStr "/api/v2/objects/statuses"];
   ECallback 0 [VNull; VObj ∅]].
Proof.
  apply (on_response_no_envelope_trace json_parse noop_fn noop_source
           example_handler 0 VNull 500 "{}" (VObj ∅) VUndefined VUndefined);
    first [ lia | vm_compute; reflexivity ].
Defined.

Lemma callback_exception_propagates_witness :
  outcome (on_response json_parse throwing_fn noop_source example_handler
             VNull 200 "{}") =
  Throw (VError "Error" "callback failed").
Proof.
  apply (callback_exception_propagates json_parse throwing_fn noop_source
           example_handler VNull 200 "{}" 0 [VNull; VObj ∅]).
  - vm_compute. apply list_elem_of_further, list_elem_of_here.
  - reflexivity.
Defined.

Lemma call_rejects_non_function_witness :
  call noop_fn noop_source example_client (OpTickets (VNum 2)) VUndefined =
  ([], Throw (VError "Error" "Callback parameter must be a fuction")).
Proof.
  apply (call_rejects_non_function noop_fn noop_source example_client
           (OpTickets (VNum 2)) VUndefined).
  discriminate.
Defined.

Lemma call_route_witness :
  let op := OpPostUpdate (VStr "AB-123456") (VObj {[ "message" := VStr "Done" ]}) in
  let opts :=
    merge (VObj (default_options example_client
                   "http://example.com:80/api/v2/tickets/post_update"))
          (update_options (VStr "AB-123456") (VObj {[ "message" := VStr "Done" ]})) in
  opts !! "method" = Some (VStr "POST")
  ∧ opts !! "url" = Some (VStr "http://example.com:80/api/v2/tickets/post_update")
  ∧ opts !! "headers" =
    Some (VObj {[ "X-Auth-Token" := VStr "tok"; "X-Auth-Secret" := VStr "sec" ]}).
Proof.
  intros op opts.
  destruct (call_route noop_fn noop_source example_client op (VFun 0) opts
              {| h_uri := "/api/v2/tickets/post_update"; h_callback := VFun 0 |})
    as (url & Hurl & _ & Hmethod & Hu & Hheaders).
  - vm_compute. apply list_elem_of_here.
  - vm_compute in Hurl. injection Hurl as <-. repeat split; assumption.
Defined.

Lemma call_parameters_witness :
  let opts :=
    merge (VObj (default_options example_client
                   "http://example.com:80/api/v2/tickets/post_update"))
          (update_options (VStr "AB-123456") (VObj {[ "message" := VStr "Done" ]})) in
  opts !! "qs" = Some (VObj {[ "ticket" := VStr "AB-123456" ]})
  ∧ opts !! "form" = Some (VObj {[ "message" := VStr "Done" ]})
  ∧ dom opts ⊆ ({[ "method"; "url"; "headers"; "qs"; "form" ]} : gset string).
Proof.
  intros opts.
  apply (call_parameters noop_fn noop_source example_client
           (OpPostUpdate (VStr "AB-123456") (VObj {[ "message" := VStr "Done" ]}))
           (VFun 0) opts
           {| h_uri := "/api/v2/tickets/post_update"; h_callback := VFun 0 |}).
  vm_compute. apply list_elem_of_here.
Defined.

Lemma call_dispatches_once_witness :
  ∃ opts,
    call noop_fn noop_source example_client (OpTickets VUndefined) (VFun 0) =
    ([ETransport opts {| h_uri := "/api/v2/tickets/all"; h_callback := VFun 0 |}],
     Normal VUndefined).
Proof.
  apply (call_dispatches_once noop_fn noop_source example_client
           (OpTickets VUndefined) 0 "http://example.com:80/api/v2/tickets/all").
  - vm_compute. reflexivity.
  - intros page [= <-]. discriminate.
Defined.

Lemma on_response_exactly_once_witness :
  callback_count
    (trace (on_response json_parse noop_fn noop_source example_handler
              VNull 404 body_not_found)) = 1%nat.
Proof.
  apply (on_response_exactly_once json_parse noop_fn noop_source
           example_handler 0 VNull 404 body_not_found); [reflexivity |].
  right. exists (VObj {[ "error" := VStr "not found" ]}).
  split; [reflexivity |]. split; [vm_compute; reflexivity |].
  right. exists (VStr "not found"). split; [reflexivity |].
  intros _. exists "not found". reflexivity.
Defined.

Lemma on_response_plural_errors_witness :
  on_response json_parse noop_fn noop_source example_handler VNull 503
    body_errors =
  ([EDebug "Request to [%d] -> [%s]" [VNum 503; VStr "/api/v2/objects/statuses"];
    ECallback 0 [VError "Error" body_errors]],
   Normal VUndefined).
Proof.
  apply (on_response_plural_errors json_parse noop_fn noop_source
           example_handler 0 VNull 503 body_errors
           (VObj {[ "errors" := VArr [VStr "a"; VStr "b"] ]})
           VUndefined (VArr [VStr "a"; VStr "b"]));
    first [ lia | vm_compute; reflexivity ].
Defined.

Lemma on_response_null_body_witness :
  on_response json_parse noop_fn noop_source example_handler VNull 500 " null " =
  ([EDebug "Request to [%d] -> [%s]" [VNum 500; VStr "/api/v2/objects/statuses"]],
   Throw (TypeError "Cannot read properties of null (reading 'error')")).
Proof.
  apply (on_response_null_body json_parse noop_fn noop_source example_handler
           VNull 500 " null ");
    first [ lia | vm_compute; reflexivity ].
Defined.
